(** * gradnet_concrete: the scatter-plot grid and the train/evaluate routine

    A shallow embedding of [funcs/plot_fun.py] ([scatter_plot]) and
    [funcs/training_fun.py] ([train_test]).

    Python integers are [Z]; [//] and [%] are the floored operations of
    Python, which agree with [Z.div] and [Z.modulo] for a non-zero divisor
    and raise [ZeroDivisionError] otherwise.  Effects (calls on matplotlib
    axes, lines printed) are recorded in an output log; an exception ends the
    run and keeps what was logged before it. *)

From Stdlib Require Import String ZArith Bool Lia QArith Qround DecimalString List.
Import ListNotations.

Local Open Scope string_scope.
Local Open Scope list_scope.
Local Open Scope Z_scope.

(** ** Exceptions and the log-and-raise monad *)

Inductive exn : Type :=
| ValueError
| KeyError
| IndexError
| ZeroDivisionError
| TypeError
| AttributeError.

Definition result (A : Type) : Type := (exn + A)%type.

(** A computation yields the effects it performed, in order, and either the
    exception that ended it or its value. *)
Definition M (W A : Type) : Type := (list W * result A)%type.

Definition ret {W A} (a : A) : M W A := ([], inr a).

Definition raise {W A} (e : exn) : M W A := ([], inl e).

Definition emit {W} (w : W) : M W unit := ([w], inr tt).

Definition lift {W A} (r : result A) : M W A := ([], r).

Definition bind {W A B} (m : M W A) (f : A -> M W B) : M W B :=
  match m with
  | (l, inl e) => (l, inl e)
  | (l, inr a) => let (l', r) := f a in (l ++ l', r)
  end.

Declare Scope py_scope.
Delimit Scope py_scope with py.

Notation "x <- c1 ;; c2" := (bind c1 (fun x => c2))
  (at level 61, c1 at next level, right associativity) : py_scope.
Notation "c1 ;;; c2" := (bind c1 (fun _ => c2))
  (at level 61, right associativity) : py_scope.

Local Open Scope py_scope.

(** [for x in xs: s = body x s], the loop state threaded through. *)
Fixpoint for_each {W A S} (xs : list A) (body : A -> S -> M W S) (s : S)
  : M W S :=
  match xs with
  | [] => ret s
  | x :: xs' => s' <- body x s ;; for_each xs' body s'
  end.

(** ** Python and numpy primitives *)

Definition py_mod (a b : Z) : result Z :=
  if b =? 0 then inl ZeroDivisionError else inr (a mod b).

Definition py_floordiv (a b : Z) : result Z :=
  if b =? 0 then inl ZeroDivisionError else inr (a / b).

(** [np.arange(n)]: 0, 1, ..., n-1, empty when [n <= 0]. *)
Definition arange (n : Z) : list Z := map Z.of_nat (seq 0 (Z.to_nat n)).

(** [l[k]] with Python's negative indices. *)
Definition py_index {A} (l : list A) (k : Z) : result A :=
  let len := Z.of_nat (length l) in
  let pos := if k <? 0 then k + len else k in
  if (pos <? 0) || (len <=? pos) then inl IndexError
  else match nth_error l (Z.to_nat pos) with
       | Some a => inr a
       | None => inl IndexError
       end.

(** ** Data frames *)

Definition Series : Type := list Z.

(** A frame is its labelled columns, in order.  The columns of a pandas
    frame share one index and so have one length; the layout code never
    looks at the values, and the model does not track that length. *)
Definition DataFrame : Type := list (string * Series).

Definition columns (df : DataFrame) : list string := map fst df.

(** [df.shape[1]] *)
Definition shape1 (df : DataFrame) : Z := Z.of_nat (length df).

(** What [df.loc[:, label]] gives: a series for a label carried by one
    column, a sub-frame for a label carried by several. *)
Inductive Selection : Type :=
| SelSeries (s : Series)
| SelFrame (d : DataFrame).

Definition has_label (label : string) (c : string * Series) : bool :=
  String.eqb (fst c) label.

(** [df.loc[:, label]] *)
Definition loc_label (df : DataFrame) (label : string) : result Selection :=
  match filter (has_label label) df with
  | [] => inl KeyError
  | [c] => inr (SelSeries (snd c))
  | cs => inr (SelFrame cs)
  end.

(** [df.loc[:, labels]] for a list of labels. *)
Definition loc_labels (df : DataFrame) (labels : list string)
  : result DataFrame :=
  if forallb (fun n => existsb (String.eqb n) (columns df)) labels
  then inr (flat_map (fun n => filter (has_label n) df) labels)
  else inl KeyError.

(** ** Row count (plot_fun.py, lines 25-28) *)

Definition n_row_of (n_features n_col : Z) : result Z :=
  match py_mod n_features n_col with
  | inl e => inl e
  | inr m =>
      if m =? 0 then py_floordiv n_features n_col
      else match py_floordiv n_features n_col with
           | inl e => inl e
           | inr q => inr (q + 1)
           end
  end.

(** The mathematical ceiling of the quotient, over the rationals. *)
Definition ceil_div (a b : Z) : Z := Qceiling (inject_Z a / inject_Z b).

(** ** matplotlib: axes, the calls made on them, and [plt.subplots] *)

(** An axes object is identified by its (row, column) place in the figure's
    grid. *)
Definition Axes : Type := (Z * Z)%type.

Inductive AxesCall : Type :=
| AxisOff                                          (* .axis('off') *)
| SpineSetVisible (spine : string) (visible : bool) (* .spines[s].set_visible(b) *)
| TickParams (axis which : string) (length : Z)     (* .tick_params(...) *)
| Scatter (x y : Selection) (label : string) (alpha : Q)
| SetXLabel (s : string)
| SetYLabel (s : string).

Inductive Effect : Type :=
| Subplots (n_row n_col : Z) (figsize : Z * Z) (dpi : Z)
| OnAxes (a : Axes) (c : AxesCall)
| SubplotsAdjust (hspace : Q).

(** What [plt.subplots] hands back with its default [squeeze=True]: the one
    axes object of a 1x1 grid, a one-dimensional array for a single row or a
    single column, a two-dimensional array otherwise. *)
Inductive AxArr : Type :=
| AxOne (a : Axes)
| AxVec (l : list Axes)
| AxMat (m : list (list Axes)).

(** The array of axes of a grid with rows and columns, squeezed. *)
Definition grid_of (n_row n_col : Z) : AxArr :=
  if (n_row =? 1) && (n_col =? 1) then AxOne (0, 0)
  else if n_row =? 1 then AxVec (map (fun j => (0, j)) (arange n_col))
  else if n_col =? 1 then AxVec (map (fun i => (i, 0)) (arange n_row))
  else AxMat (map (fun i => map (fun j => (i, j)) (arange n_col))
                  (arange n_row)).

(** [plt.subplots(n_row, n_col, figsize=f_size, dpi=dpi)].  matplotlib
    refuses a grid without a positive number of rows and of columns. *)
Definition subplots (n_row n_col : Z) (f_size : Z * Z) (dpi : Z)
  : M Effect AxArr :=
  if (n_row <=? 0) || (n_col <=? 0) then raise ValueError
  else emit (Subplots n_row n_col f_size dpi) ;;; ret (grid_of n_row n_col).

(** [x[k]]: an axes object has no items; an item of a two-dimensional array
    is one of its rows. *)
Definition getitem (x : AxArr) (k : Z) : result AxArr :=
  match x with
  | AxOne _ => inl TypeError
  | AxVec l => match py_index l k with
               | inl e => inl e
               | inr a => inr (AxOne a)
               end
  | AxMat m => match py_index m k with
               | inl e => inl e
               | inr r => inr (AxVec r)
               end
  end.

(** Using [x] as an axes object (calling an axes method on it). *)
Definition as_axes (x : AxArr) : result Axes :=
  match x with
  | AxOne a => inr a
  | _ => inl AttributeError
  end.

(** The receivers [axarr], [axarr[k]] and [axarr[i][j]] of an axes call. *)
Definition at0 (axarr : AxArr) : result Axes := as_axes axarr.

Definition at1 (axarr : AxArr) (k : Z) : result Axes :=
  match getitem axarr k with
  | inl e => inl e
  | inr x => as_axes x
  end.

Definition at2 (axarr : AxArr) (i j : Z) : result Axes :=
  match getitem axarr i with
  | inl e => inl e
  | inr x => at1 x j
  end.

Definition call (receiver : result Axes) (c : AxesCall) : M Effect unit :=
  a <- lift receiver ;; emit (OnAxes a c).

(** ** scatter_plot (plot_fun.py) *)

Definition alpha_06 : Q := 6 # 10.
Definition hspace_1 : Q := 1 # 1.
Definition hspace_05 : Q := 5 # 10.

Section GridWalk.

(** The locals of [scatter_plot] the loop body reads. *)
Variables (n_row n_col n_features : Z).
Variable feature_names : list string.
Variable df_features : DataFrame.
Variable outcome_data : Selection.
Variable outcome_col : string.
Variable axarr : AxArr.

(** Lines 41-50: an empty cell of the grid is switched off. *)
Definition turn_off (i j : Z) : M Effect unit :=
  if n_row =? 1 then call (at1 axarr j) AxisOff
  else if n_col =? 1 then call (at1 axarr i) AxisOff
  else call (at2 axarr i j) AxisOff.

(** Lines 60-75: spines and tick marks. *)
Definition style_cell (i j : Z) : M Effect unit :=
  if (n_row =? 1) && (n_col =? 1) then
    call (at0 axarr) (SpineSetVisible "right" false) ;;;
    call (at0 axarr) (SpineSetVisible "top" false) ;;;
    call (at0 axarr) (TickParams "both" "both" 5)
  else if n_row =? 1 then
    call (at1 axarr j) (SpineSetVisible "right" false) ;;;
    call (at1 axarr j) (SpineSetVisible "top" false) ;;;
    call (at1 axarr j) (TickParams "both" "both" 5)
  else if n_col =? 1 then
    call (at1 axarr i) (SpineSetVisible "right" false) ;;;
    call (at1 axarr i) (SpineSetVisible "top" false) ;;;
    call (at1 axarr i) (TickParams "both" "both" 5)
  else
    call (at2 axarr i j) (SpineSetVisible "right" false) ;;;
    call (at2 axarr i j) (SpineSetVisible "top" false) ;;;
    call (at2 axarr i j) (TickParams "both" "both" 5).

(** [ax.set_xlabel(feature_names[v])]: receiver first, then the argument. *)
Definition set_xlabel (receiver : result Axes) (v : Z) : M Effect unit :=
  a <- lift receiver ;;
  name <- lift (py_index feature_names v) ;;
  emit (OnAxes a (SetXLabel name)).

(** Lines 77-98: the scatter and the axis labels. *)
Definition draw_cell (i j v : Z) (plt_data : Selection) (lab : string)
  : M Effect unit :=
  if (n_row =? 1) && (n_col =? 1) then
    call (at0 axarr) (Scatter plt_data outcome_data lab alpha_06) ;;;
    set_xlabel (at0 axarr) v ;;;
    call (at0 axarr) (SetYLabel outcome_col)
  else if n_row =? 1 then
    call (at1 axarr j) (Scatter plt_data outcome_data lab alpha_06) ;;;
    set_xlabel (at1 axarr j) v ;;;
    if j =? 0 then call (at1 axarr j) (SetYLabel outcome_col) else ret tt
  else if n_col =? 1 then
    call (at1 axarr i) (Scatter plt_data outcome_data lab alpha_06) ;;;
    set_xlabel (at1 axarr i) v ;;;
    if i =? 0 then call (at1 axarr i) (SetYLabel outcome_col) else ret tt
  else
    call (at2 axarr i j) (Scatter plt_data outcome_data lab alpha_06) ;;;
    set_xlabel (at2 axarr i j) v ;;;
    if j =? 0 then call (at2 axarr i j) (SetYLabel outcome_col) else ret tt.

(** Lines 60-98: everything done to a cell that shows a feature. *)
Definition render_cell (i j v : Z) (plt_data : Selection) (lab : string)
  : M Effect unit :=
  style_cell i j ;;; draw_cell i j v plt_data lab.

(** [df_features.loc[:, feature_names[v]]] *)
Definition feature_column (v : Z) : M Effect Selection :=
  name <- lift (py_index feature_names v) ;;
  lift (loc_label df_features name).

(** One turn of the inner loop (lines 41-100); the value is the new [v].
    [xmin], [xmax] and [xnew] of lines 55-57 are computed and never used:
    their two column lookups are kept, the values are not. *)
Definition cell_body (i j v : Z) : M Effect Z :=
  if v >=? n_features then
    turn_off i j ;;; ret v                                   (* continue *)
  else
    plt_data <- feature_column v ;;
    lab <- lift (py_index feature_names v) ;;
    _ <- feature_column v ;;
    _ <- feature_column v ;;
    render_cell i j v plt_data lab ;;;
    ret (v + 1).

(** Lines 35-100. *)
Definition grid_walk : M Effect Z :=
  for_each (arange n_row)
    (fun i v => for_each (arange n_col) (fun j v' => cell_body i j v') v)
    0.

End GridWalk.

Definition scatter_plot (df : DataFrame) (n_col : Z)
    (outcome_col : option string) (f_size : Z * Z) : M Effect unit :=
  match outcome_col with
  | None => raise ValueError
  | Some outcome =>
      let n_features := shape1 df - 1 in
      let feature_names :=
        filter (fun x => negb (String.eqb x outcome)) (columns df) in
      df_features <- lift (loc_labels df feature_names) ;;
      n_row <- lift (n_row_of n_features n_col) ;;
      outcome_data <- lift (loc_label df outcome) ;;
      axarr <- subplots n_row n_col f_size 80 ;;
      _ <- grid_walk n_row n_col n_features feature_names df_features
             outcome_data outcome axarr ;;
      if n_col =? 1 then emit (SubplotsAdjust hspace_1)
      else emit (SubplotsAdjust hspace_05)
  end.

(** The default arguments of [scatter_plot]. *)
Definition default_n_col : Z := 3.
Definition default_f_size : Z * Z := (15, 15).

(** ** train_test (training_fun.py) *)

(** scikit-learn and numpy as [train_test] uses them.  Floating-point numbers,
    arrays and fitted forests are opaque; every call may raise. *)
Record Library : Type := {
  Float : Type;
  Table : Type;                  (* a feature matrix *)
  Vector : Type;                 (* an outcome or prediction vector *)
  Forest : Type;                 (* a fitted ensemble *)
  RandomState : Type;            (* the state of a numpy generator *)
  seeded : Z -> RandomState;     (* np.random.RandomState(seed) *)
  grow : RandomState -> Z -> Z -> Z -> Table -> Vector -> result Forest;
  forest_predict : Forest -> Table -> result Vector;
  mean_squared_error : Vector -> Vector -> result Float;
  float_pow : Float -> Float -> Float;     (* x ** y *)
  half : Float;                            (* 0.5 *)
  format_float : Float -> string           (* "{}".format(x) *)
}.

Section TrainTest.

Variable L : Library.

(** The constructor arguments [train_test] passes. *)
Record RandomForestRegressor : Type := {
  n_estimators : Z;
  max_depth : Z;
  max_features : Z;
  random_state : option Z
}.

(** The generator an estimator draws from: numpy's ambient one when no seed
    was given, a fresh one made from the seed otherwise. *)
Definition check_random_state (seed : option Z) (ambient : RandomState L)
  : RandomState L :=
  match seed with
  | None => ambient
  | Some s => seeded L s
  end.

(** [model.fit(X, y)] *)
Definition fit (model : RandomForestRegressor) (ambient : RandomState L)
    (X : Table L) (y : Vector L) : result (Forest L) :=
  grow L (check_random_state (random_state model) ambient)
    (n_estimators model) (max_depth model) (max_features model) X y.

Definition rbind {A B} (r : result A) (f : A -> result B) : result B :=
  match r with
  | inl e => inl e
  | inr a => f a
  end.

(** Lines 12-22: the two errors.  [ambient] is the state of numpy's global
    generator when the call is made. *)
Definition train_test_rmse (ambient : RandomState L)
    (features_train : Table L) (outcome_train : Vector L)
    (features_test : Table L) (outcome_test : Vector L)
    (n_trees n_features depth : Z) : result (Float L * Float L) :=
  let model := {| n_estimators := n_trees;
                  max_depth := depth;
                  max_features := n_features;
                  random_state := Some 1234 |} in
  rbind (fit model ambient features_train outcome_train) (fun fitted =>
  rbind (forest_predict L fitted features_train) (fun pred_train =>
  rbind (forest_predict L fitted features_test) (fun pred_test =>
  rbind (mean_squared_error L outcome_train pred_train) (fun mse_train =>
  let rmse_train := float_pow L mse_train (half L) in
  rbind (mean_squared_error L outcome_test pred_test) (fun mse_test =>
  let rmse_test := float_pow L mse_test (half L) in
  inr (rmse_train, rmse_test)))))).

(** Lines 12-26: the log holds the lines printed; the value is [None]. *)
Definition train_test (ambient : RandomState L)
    (features_train : Table L) (outcome_train : Vector L)
    (features_test : Table L) (outcome_test : Vector L)
    (n_trees n_features depth : Z) : M string unit :=
  rmse <- lift (train_test_rmse ambient features_train outcome_train
                  features_test outcome_test n_trees n_features depth) ;;
  emit ("rmse train: " ++ format_float L (fst rmse))%string ;;;
  emit ("rmse test: " ++ format_float L (snd rmse))%string ;;;
  ret tt.

End TrainTest.

Arguments fit {L}.
Arguments train_test_rmse {L}.
Arguments train_test {L}.

(** The default hyperparameters of [train_test]. *)
Definition default_n_trees : Z := 100.
Definition default_n_features : Z := 3.
Definition default_max_depth : Z := 6.

(** ** Reading a figure's log *)

(** The cells of an [n_row] by [n_col] grid in row-major order, the row index
    outermost. *)
Definition row_major (n_row n_col : Z) : list Axes :=
  flat_map (fun i => map (fun j => (i, j)) (arange n_col)) (arange n_row).

Inductive CellState : Type :=
| Rendered (feature : string)
| Deactivated.

(** The cells the walk settled, in the order it settled them: a scatter shows
    the feature it is labelled with, [axis('off')] deactivates. *)
Definition cell_events (log : list Effect) : list (Axes * CellState) :=
  flat_map (fun e => match e with
                     | OnAxes a (Scatter _ _ lab _) => [(a, Rendered lab)]
                     | OnAxes a AxisOff => [(a, Deactivated)]
                     | _ => []
                     end) log.

Definition rendered_cells (log : list Effect) : list Axes :=
  flat_map (fun e => match e with
                     | OnAxes a (Scatter _ _ _ _) => [a]
                     | _ => []
                     end) log.

Definition ylabel_cells (log : list Effect) : list Axes :=
  flat_map (fun e => match e with
                     | OnAxes a (SetYLabel _) => [a]
                     | _ => []
                     end) log.

(** The calls made on one axes object, in order. *)
Definition calls_on (a : Axes) (log : list Effect) : list AxesCall :=
  flat_map (fun e => match e with
                     | OnAxes b c =>
                         if (fst a =? fst b) && (snd a =? snd b) then [c]
                         else []
                     | _ => []
                     end) log.


(** Which cells [draw_cell] gives a y label, path by path. *)
Definition labels_y (n_row n_col i j : Z) : bool :=
  if (n_row =? 1) && (n_col =? 1) then true
  else if n_row =? 1 then j =? 0
  else if n_col =? 1 then i =? 0
  else j =? 0.

(** The calls a rendered cell receives, given whether it is y-labelled. *)
Definition rendered_calls (x y : Selection) (name outcome : string)
    (ylab : bool) : list AxesCall :=
  [SpineSetVisible "right" false; SpineSetVisible "top" false;
   TickParams "both" "both" 5; Scatter x y name alpha_06; SetXLabel name]
  ++ (if ylab then [SetYLabel outcome] else []).

(** The specification's single rendering rule, whatever the shape of the
    grid: borders hidden, ticks shown, the scatter, the x label, and the y
    label on column 0 only. *)
Definition unified_cell_calls (x y : Selection) (name outcome : string)
    (j : Z) : list AxesCall :=
  rendered_calls x y name outcome (j =? 0).

(** The specification's cell accessor, which hides the dimension of the
    array. *)
Definition cell_accessor (n_row n_col : Z) (axarr : AxArr) (i j : Z)
  : result Axes :=
  if (n_row =? 1) && (n_col =? 1) then at0 axarr
  else if n_row =? 1 then at1 axarr j
  else if n_col =? 1 then at1 axarr i
  else at2 axarr i j.

(** The log of a walk over [cells] that still has [feats] to show: one
    rendered cell per feature, the cells left over switched off. *)
Definition walk_log (n_row n_col : Z) (outcome_data : Selection)
    (outcome : string) (cells : list Axes) (feats : DataFrame)
  : list Effect :=
  flat_map (fun cf : Axes * (string * Series) =>
              let (a, f) := cf in
              map (OnAxes a)
                  (rendered_calls (SelSeries (snd f)) outcome_data (fst f)
                     outcome (labels_y n_row n_col (fst a) (snd a))))
           (combine cells feats)
  ++ map (fun a => OnAxes a AxisOff) (skipn (length feats) cells).

(** A cell of an [n_row] by [n_col] grid. *)
Definition in_grid (n_row n_col : Z) (a : Axes) : Prop :=
  0 <= fst a < n_row /\ 0 <= snd a < n_col.

(** The columns other than the outcome. *)
Definition features_of (df : DataFrame) (outcome : string) : DataFrame :=
  filter (fun c => negb (String.eqb (fst c) outcome)) df.

(** A table as the specification has it: columns uniquely named, the outcome
    among them. *)
Definition valid_table (df : DataFrame) (outcome : string) : Prop :=
  NoDup (columns df) /\ In outcome (columns df).

(** ** A library over the integers, to run [train_test] on *)

Definition z_sum (l : list Z) : Z := fold_right Z.add 0 l.

Definition z_mse (y_true y_pred : list Z) : result Z :=
  if (Z.of_nat (length y_true) =? Z.of_nat (length y_pred))
     && negb (Z.of_nat (length y_true) =? 0)
  then inr (z_sum (map (fun p => (fst p - snd p) * (fst p - snd p))
                       (combine y_true y_pred))
            / Z.of_nat (length y_true))
  else inl ValueError.

(** A forest that predicts the mean outcome shifted by a draw from its
    generator. *)
Definition IntLib : Library := {|
  Float := Z;
  Table := list (list Z);
  Vector := list Z;
  Forest := Z;
  RandomState := Z;
  seeded := fun s => s;
  grow := fun st _ _ _ X y =>
    if (Z.of_nat (length X) =? Z.of_nat (length y))
       && negb (Z.of_nat (length y) =? 0)
    then inr (z_sum y / Z.of_nat (length y) + st mod 2)
    else inl ValueError;
  forest_predict := fun f X => inr (map (fun _ => f) X);
  mean_squared_error := z_mse;
  float_pow := fun x _ => Z.sqrt x;
  half := 0;
  format_float := fun x => NilZero.string_of_int (Z.to_int x)
|}.


(** ** Sample tables *)

(** Two features and the outcome, two rows of data. *)
Definition df_ab : DataFrame := [("a", [1; 2]); ("b", [3; 4]); ("y", [5; 6])].

(** Seven features and the outcome. *)
Definition df_seven : DataFrame :=
  [("f1", [1]); ("f2", [2]); ("f3", [3]); ("f4", [4]); ("f5", [5]);
   ("f6", [6]); ("f7", [7]); ("y", [0])].

(** * Properties *)

(** ** The row count *)

Lemma n_row_of_pos (f c : Z) :
  1 <= c ->
  n_row_of f c = inr (if f mod c =? 0 then f / c else f / c + 1).
Proof.
  intros Hc. unfold n_row_of, py_mod, py_floordiv.
  destruct (Z.eqb_spec c 0) as [->|_]; [lia|].
  now destruct (f mod c =? 0).
Qed.

Lemma ceil_div_spec (f c : Z) :
  1 <= c -> ceil_div f c = - ((- f) / c).
Proof.
  intros Hc. unfold ceil_div, Qceiling, Qfloor, Qdiv, Qmult, Qinv, inject_Z.
  destruct c as [|p|p]; try lia. cbn.
  now rewrite Z.mul_1_r.
Qed.

Lemma ceil_div_rows (f c : Z) :
  1 <= c ->
  (if f mod c =? 0 then f / c else f / c + 1) = ceil_div f c.
Proof.
  intros Hc. rewrite ceil_div_spec by assumption.
  pose proof (Z.div_mod f c ltac:(lia)) as Hf.
  pose proof (Z.mod_pos_bound f c ltac:(lia)) as Hm.
  set (q := f / c) in *. set (r := f mod c) in *.
  destruct (Z.eqb_spec r 0) as [E|E].
  - replace (- f) with ((- q) * c) by (rewrite Hf, E; ring).
    rewrite Z.div_mul by lia. lia.
  - replace (- f) with ((c - r) + (- q - 1) * c) by (rewrite Hf; ring).
    rewrite Z.div_add by lia.
    rewrite Z.div_small by lia. lia.
Qed.

Lemma ceil_div_bounds (f c : Z) :
  1 <= c -> (ceil_div f c - 1) * c < f <= ceil_div f c * c.
Proof.
  intros Hc. rewrite <- ceil_div_rows by assumption.
  pose proof (Z.div_mod f c ltac:(lia)) as Hf.
  pose proof (Z.mod_pos_bound f c ltac:(lia)) as Hm.
  destruct (Z.eqb_spec (f mod c) 0) as [E|E]; nia.
Qed.

Lemma row_count_is_rows (f c : Z) :
  1 <= c ->
  n_row_of f c = inr (ceil_div f c)
  /\ (ceil_div f c - 1) * c < f <= ceil_div f c * c.
Proof.
  intros Hc. split.
  - rewrite n_row_of_pos by assumption. f_equal. now apply ceil_div_rows.
  - now apply ceil_div_bounds.
Qed.

(** C3: for a column count of at least 1 and a feature count of at least 0,
    the row count [scatter_plot] computes is the ceiling of
    featureCount / columnCount, the least number of rows of [columnCount]
    cells that hold all features; 7 features in 3 columns take 3 rows. *)
Theorem row_count_is_ceiling (n_features n_col : Z) :
  1 <= n_col -> 0 <= n_features ->
  n_row_of n_features n_col = inr (ceil_div n_features n_col)
  /\ (ceil_div n_features n_col - 1) * n_col < n_features
       <= ceil_div n_features n_col * n_col
  /\ n_row_of 7 3 = inr 3.
Proof.
  intros Hc Hf. split; [|split].
  - rewrite n_row_of_pos by assumption. f_equal. now apply ceil_div_rows.
  - now apply ceil_div_bounds.
  - reflexivity.
Qed.

Lemma row_count_is_ceiling_witness :
  n_row_of 8 3 = inr (ceil_div 8 3)
  /\ (ceil_div 8 3 - 1) * 3 < 8 <= ceil_div 8 3 * 3
  /\ n_row_of 7 3 = inr 3.
Proof.
  apply (row_count_is_ceiling 8 3); lia.
Defined.

(** ** The monad and the loop *)

Lemma bind_assoc {W A B C} (m : M W A) (f : A -> M W B) (g : B -> M W C) :
  bind (bind m f) g = bind m (fun x => bind (f x) g).
Proof.
  destruct m as [l [e|a]]; cbn; [reflexivity|].
  destruct (f a) as [l' [e'|b]]; cbn; [reflexivity|].
  destruct (g b) as [l'' r]. now rewrite app_assoc.
Qed.

Lemma bind_value {W A B} (l l' : list W) (a : A) (f : A -> M W B) r :
  f a = (l', r) -> bind (l, inr a) f = (l ++ l', r).
Proof. intros E. cbn. now rewrite E. Qed.

Lemma bind_step {W A B} (m : M W A) (f : A -> M W B) l a l' r :
  m = (l, inr a) -> f a = (l', r) -> bind m f = (l ++ l', r).
Proof. intros -> E. now apply bind_value. Qed.

Lemma for_each_app {W A S} (xs ys : list A) (body : A -> S -> M W S) s :
  for_each (xs ++ ys) body s
  = bind (for_each xs body s) (fun s' => for_each ys body s').
Proof.
  revert s. induction xs as [|x xs IH]; intros s; cbn.
  - now destruct (for_each ys body s).
  - rewrite bind_assoc.
    destruct (body x s) as [l [e|s']]; cbn; [reflexivity|].
    now rewrite IH.
Qed.

Lemma for_each_map {W A B S} (g : A -> B) (xs : list A)
    (body : B -> S -> M W S) s :
  for_each (map g xs) body s = for_each xs (fun x => body (g x)) s.
Proof.
  revert s. induction xs as [|x xs IH]; intros s; cbn; [reflexivity|].
  destruct (body (g x) s) as [l [e|s']]; cbn; [reflexivity|].
  now rewrite IH.
Qed.

(** Two nested loops are one loop over the pairs in row-major order. *)
Lemma for_each_nested {W S} (rows cols : list Z)
    (body : Z -> Z -> S -> M W S) s :
  for_each rows (fun i v => for_each cols (fun j v' => body i j v') v) s
  = for_each (flat_map (fun i => map (fun j => (i, j)) cols) rows)
      (fun a v => body (fst a) (snd a) v) s.
Proof.
  revert s. induction rows as [|i rows IH]; intros s; cbn; [reflexivity|].
  rewrite for_each_app, for_each_map. cbn.
  destruct (for_each cols (fun j v' => body i j v') s) as [l [e|s']]; cbn;
    [reflexivity|].
  now rewrite IH.
Qed.

(** ** Indexing *)

Lemma py_index_nth {A} (l : list A) (n : nat) (a : A) :
  nth_error l n = Some a -> py_index l (Z.of_nat n) = inr a.
Proof.
  intros E. unfold py_index.
  assert (n < length l)%nat by (apply nth_error_Some; congruence).
  destruct (Z.ltb_spec (Z.of_nat n) 0); [lia|].
  destruct (Z.ltb_spec (Z.of_nat n) 0); [lia|].
  destruct (Z.leb_spec (Z.of_nat (length l)) (Z.of_nat n)); [lia|].
  cbn. now rewrite Nat2Z.id, E.
Qed.

Lemma py_index_inr {A} (l : list A) (k : Z) (a : A) :
  0 <= k -> py_index l k = inr a ->
  k < Z.of_nat (length l) /\ nth_error l (Z.to_nat k) = Some a.
Proof.
  intros Hk. unfold py_index.
  destruct (Z.ltb_spec k 0); [lia|].
  destruct (Z.ltb_spec k 0); [lia|].
  destruct (Z.leb_spec (Z.of_nat (length l)) k); cbn; [discriminate|].
  destruct (nth_error l (Z.to_nat k)); [|discriminate].
  intros [= ->]. split; [lia|reflexivity].
Qed.

Lemma arange_nth (n k : Z) :
  0 <= k < n -> nth_error (arange n) (Z.to_nat k) = Some k.
Proof.
  intros H. unfold arange.
  rewrite nth_error_map, nth_error_seq.
  destruct (Nat.ltb_spec (Z.to_nat k) (Z.to_nat n)); [|lia].
  cbn. f_equal. lia.
Qed.

Lemma arange_length (n : Z) : 0 <= n -> Z.of_nat (length (arange n)) = n.
Proof. intros H. unfold arange. rewrite length_map, length_seq. lia. Qed.

Lemma arange_in (n k : Z) : In k (arange n) -> 0 <= k < n.
Proof.
  unfold arange. rewrite in_map_iff. intros (m & <- & Hm).
  apply in_seq in Hm. lia.
Qed.

Lemma py_index_arange_map {A} (f : Z -> A) (n k : Z) :
  0 <= k < n -> py_index (map f (arange n)) k = inr (f k).
Proof.
  intros H. rewrite <- (Z2Nat.id k) at 1 by lia.
  apply py_index_nth. rewrite nth_error_map, arange_nth by assumption.
  reflexivity.
Qed.

(** ** The four indexing paths *)

Lemma cell_accessor_grid (n_row n_col i j : Z) :
  0 <= i < n_row -> 0 <= j < n_col ->
  cell_accessor n_row n_col (grid_of n_row n_col) i j = inr (i, j).
Proof.
  intros Hi Hj. unfold cell_accessor, grid_of.
  destruct (Z.eqb_spec n_row 1) as [Er|Er], (Z.eqb_spec n_col 1) as [Ec|Ec];
    cbn [andb].
  - cbn. do 2 f_equal; lia.
  - unfold at1, getitem. rewrite py_index_arange_map by assumption.
    cbn. do 2 f_equal; lia.
  - unfold at1, getitem. rewrite py_index_arange_map by assumption.
    cbn. do 2 f_equal; lia.
  - unfold at2, at1, getitem.
    rewrite (py_index_arange_map
               (fun i0 => map (fun j0 => (i0, j0)) (arange n_col)))
      by assumption.
    now rewrite py_index_arange_map by assumption.
Qed.

Section Paths.

Variables (n_row n_col : Z).
Variable feature_names : list string.
Variable outcome_data : Selection.
Variable outcome_col : string.
Variable axarr : AxArr.

Local Abbreviation acc := (cell_accessor n_row n_col axarr).

Lemma turn_off_accessor (i j : Z) :
  (n_row =? 1) && (n_col =? 1) = false ->
  turn_off n_row n_col axarr i j = call (acc i j) AxisOff.
Proof.
  unfold turn_off, cell_accessor. intros ->.
  now destruct (n_row =? 1), (n_col =? 1).
Qed.

Lemma style_cell_accessor (i j : Z) :
  style_cell n_row n_col axarr i j
  = (call (acc i j) (SpineSetVisible "right" false) ;;;
     call (acc i j) (SpineSetVisible "top" false) ;;;
     call (acc i j) (TickParams "both" "both" 5)).
Proof.
  unfold style_cell, cell_accessor.
  now destruct (n_row =? 1), (n_col =? 1).
Qed.

Lemma draw_cell_accessor (i j v : Z) (x : Selection) (lab : string) :
  draw_cell n_row n_col feature_names outcome_data outcome_col axarr
    i j v x lab
  = (call (acc i j) (Scatter x outcome_data lab alpha_06) ;;;
     set_xlabel feature_names (acc i j) v ;;;
     if labels_y n_row n_col i j
     then call (acc i j) (SetYLabel outcome_col) else ret tt).
Proof.
  unfold draw_cell, labels_y, cell_accessor.
  now destruct (n_row =? 1), (n_col =? 1).
Qed.

(** What a rendered cell logs once its axes object and its feature name
    are found. *)
Lemma render_cell_log (i j v : Z) (a : Axes) (x : Selection)
    (name : string) :
  acc i j = inr a ->
  py_index feature_names v = inr name ->
  render_cell n_row n_col feature_names outcome_data outcome_col axarr
    i j v x name
  = (map (OnAxes a)
       (rendered_calls x outcome_data name outcome_col
          (labels_y n_row n_col i j)),
     inr tt).
Proof.
  intros Ha Hn. unfold render_cell.
  rewrite style_cell_accessor, draw_cell_accessor.
  unfold set_xlabel. rewrite Ha, Hn. unfold rendered_calls.
  now destruct (labels_y n_row n_col i j).
Qed.

End Paths.

(** ** Frames with uniquely named columns *)

Lemma filter_absent (df : DataFrame) (n : string) :
  ~ In n (columns df) -> filter (has_label n) df = [].
Proof.
  induction df as [|c df IH]; cbn; intros H; [reflexivity|].
  unfold has_label at 1. destruct (String.eqb_spec (fst c) n) as [E|E].
  - exfalso. apply H. now left.
  - apply IH. intros Hin. apply H. now right.
Qed.

Lemma filter_unique (df : DataFrame) (c : string * Series) :
  NoDup (columns df) -> In c df -> filter (has_label (fst c)) df = [c].
Proof.
  induction df as [|c0 df IH]; cbn; intros Hnd Hin; [contradiction|].
  inversion Hnd as [|? ? Hnotin Hnd']; subst.
  destruct Hin as [->|Hin].
  - unfold has_label at 1. rewrite String.eqb_refl.
    now rewrite filter_absent.
  - unfold has_label at 1. destruct (String.eqb_spec (fst c0) (fst c)) as [E|E].
    + exfalso. apply Hnotin. rewrite E. now apply in_map.
    + now apply IH.
Qed.

Lemma loc_label_unique (df : DataFrame) (n : string) (s : Series) :
  NoDup (columns df) -> In (n, s) df -> loc_label df n = inr (SelSeries s).
Proof.
  intros Hnd Hin. unfold loc_label.
  pose proof (filter_unique df (n, s) Hnd Hin) as E. cbn in E.
  now rewrite E.
Qed.

Lemma loc_label_absent (df : DataFrame) (n : string) :
  ~ In n (columns df) -> loc_label df n = inl KeyError.
Proof. intros H. unfold loc_label. now rewrite filter_absent. Qed.

Lemma columns_features_of (df : DataFrame) (outcome : string) :
  filter (fun x => negb (String.eqb x outcome)) (columns df)
  = columns (features_of df outcome).
Proof.
  unfold columns, features_of.
  induction df as [|c df IH]; cbn; [reflexivity|].
  destruct (negb (String.eqb (fst c) outcome)); cbn; now rewrite IH.
Qed.

Lemma features_of_NoDup (df : DataFrame) (outcome : string) :
  NoDup (columns df) -> NoDup (columns (features_of df outcome)).
Proof.
  intros H. rewrite <- columns_features_of. now apply NoDup_filter.
Qed.

Lemma features_of_length (df : DataFrame) (outcome : string) :
  valid_table df outcome ->
  Z.of_nat (length (features_of df outcome)) = shape1 df - 1.
Proof.
  unfold valid_table, shape1, features_of, columns.
  intros [Hnd Hin].
  enough (length (filter (fun c => negb (String.eqb (fst c) outcome)) df) + 1
          = length df)%nat by lia.
  induction df as [|c df IH]; cbn in *; [contradiction|].
  inversion Hnd as [|? ? Hnotin Hnd']; subst.
  destruct (String.eqb_spec (fst c) outcome) as [E|E]; cbn.
  - rewrite forallb_filter_id; [lia|].
    apply forallb_forall. intros d Hd.
    destruct (String.eqb_spec (fst d) outcome) as [E'|E']; [|reflexivity].
    exfalso. apply Hnotin. rewrite E, <- E'. now apply in_map.
  - destruct Hin as [Hin|Hin]; [contradiction|].
    rewrite <- (IH Hnd' Hin). lia.
Qed.

Lemma loc_labels_sub (df sub : DataFrame) :
  NoDup (columns df) -> incl sub df ->
  loc_labels df (columns sub) = inr sub.
Proof.
  intros Hnd Hsub. unfold loc_labels.
  replace (forallb _ (columns sub)) with true.
  - f_equal. induction sub as [|c sub IH]; cbn; [reflexivity|].
    rewrite (filter_unique df c Hnd) by (apply Hsub; now left).
    cbn. f_equal. apply IH. intros d Hd. apply Hsub. now right.
  - symmetry. apply forallb_forall. intros n Hn.
    apply existsb_exists. exists n. split; [|apply String.eqb_refl].
    unfold columns in *. apply in_map_iff in Hn. destruct Hn as (c & <- & Hc).
    apply in_map. now apply Hsub.
Qed.

Lemma loc_labels_features (df : DataFrame) (outcome : string) :
  NoDup (columns df) ->
  loc_labels df (filter (fun x => negb (String.eqb x outcome)) (columns df))
  = inr (features_of df outcome).
Proof.
  intros Hnd. rewrite columns_features_of. apply loc_labels_sub; [assumption|].
  intros c Hc. unfold features_of in Hc. now apply filter_In in Hc.
Qed.

Lemma loc_label_outcome (df : DataFrame) (outcome : string) :
  valid_table df outcome ->
  exists s, In (outcome, s) df /\ loc_label df outcome = inr (SelSeries s).
Proof.
  intros [Hnd Hin]. unfold columns in Hin.
  apply in_map_iff in Hin. destruct Hin as ([n s] & E & Hin). cbn in E. subst.
  exists s. split; [assumption|]. now apply loc_label_unique.
Qed.

(** ** The grid walk *)

Section Walk.

Variables (n_row n_col : Z).
Variable feats : DataFrame.
Variable outcome_data : Selection.
Variable outcome_col : string.

Hypothesis feats_NoDup : NoDup (columns feats).

Local Abbreviation n_features := (Z.of_nat (length feats)).
Local Abbreviation body :=
  (cell_body n_row n_col n_features (columns feats) feats outcome_data
     outcome_col (grid_of n_row n_col)).

Lemma feature_column_at (v : Z) (name : string) (s : Series) :
  0 <= v -> nth_error feats (Z.to_nat v) = Some (name, s) ->
  py_index (columns feats) v = inr name
  /\ feature_column (columns feats) feats v = ([], inr (SelSeries s)).
Proof.
  intros Hv E.
  assert (py_index (columns feats) v = inr name) as Hn.
  { rewrite <- (Z2Nat.id v) by assumption. apply py_index_nth.
    unfold columns. now rewrite nth_error_map, E. }
  split; [assumption|].
  unfold feature_column. rewrite Hn. cbn.
  rewrite (loc_label_unique feats name s feats_NoDup); [reflexivity|].
  eapply nth_error_In, E.
Qed.

Lemma cell_body_render (a : Axes) (v : Z) (name : string) (s : Series) :
  in_grid n_row n_col a -> 0 <= v ->
  nth_error feats (Z.to_nat v) = Some (name, s) ->
  body (fst a) (snd a) v
  = (map (OnAxes a)
       (rendered_calls (SelSeries s) outcome_data name outcome_col
          (labels_y n_row n_col (fst a) (snd a))),
     inr (v + 1)).
Proof.
  intros [Hi Hj] Hv E. unfold cell_body.
  assert (v < n_features) as Hlt.
  { assert (Z.to_nat v < length feats)%nat
      by (apply nth_error_Some; congruence).
    lia. }
  destruct (Z.geb_spec v n_features); [lia|].
  destruct (feature_column_at v name s Hv E) as [Hn Hc].
  rewrite Hc, Hn. cbn [lift bind app].
  erewrite render_cell_log;
    [|now apply cell_accessor_grid|exact Hn].
  destruct a as [i j]. cbn [bind ret fst snd].
  now rewrite app_nil_r.
Qed.

Lemma cell_body_off (a : Axes) (v : Z) :
  in_grid n_row n_col a -> (n_row =? 1) && (n_col =? 1) = false ->
  n_features <= v ->
  body (fst a) (snd a) v = ([OnAxes a AxisOff], inr v).
Proof.
  intros [Hi Hj] Hshape Hv. unfold cell_body.
  destruct (Z.geb_spec v n_features); [|lia].
  rewrite turn_off_accessor by assumption.
  rewrite cell_accessor_grid by assumption.
  now destruct a.
Qed.

Lemma skipn_cons_nth {A} (l : list A) (n : nat) (x : A) :
  nth_error l n = Some x -> skipn n l = x :: skipn (S n) l.
Proof.
  revert n. induction l as [|y l IH]; intros [|n]; cbn; try discriminate.
  - now intros [= ->].
  - apply IH.
Qed.

(** The loop invariant: with [v] features shown so far, walking [cells]
    shows the features from [v] on, one per cell, and switches off the
    cells left over. *)
Lemma walk_cells (cells : list Axes) (v : Z) :
  Forall (in_grid n_row n_col) cells ->
  0 <= v <= n_features ->
  (n_row =? 1) && (n_col =? 1) = false
    \/ v + Z.of_nat (length cells) <= n_features ->
  for_each cells (fun a v' => body (fst a) (snd a) v') v
  = (walk_log n_row n_col outcome_data outcome_col cells
       (skipn (Z.to_nat v) feats),
     inr (Z.min n_features (v + Z.of_nat (length cells)))).
Proof.
  intros Hcells. revert v.
  induction Hcells as [|a cells Ha Hcells IH]; intros v Hv Hshape.
  - cbn. unfold walk_log. rewrite skipn_nil. cbn.
    unfold ret. do 2 f_equal. lia.
  - cbn [for_each].
    destruct (Z.eq_dec v n_features) as [E|E].
    + assert (skipn (Z.to_nat v) feats = []) as Hs
        by (apply skipn_all2; lia).
      assert ((n_row =? 1) && (n_col =? 1) = false) as Hsh.
      { destruct Hshape as [H|H]; [assumption|]. cbn in H. lia. }
      rewrite cell_body_off by (assumption || lia).
      cbn [bind]. rewrite IH; [|lia|now left]. rewrite Hs.
      unfold walk_log. rewrite !combine_nil. cbn [flat_map length skipn app map].
      do 2 f_equal. lia.
    + destruct (nth_error feats (Z.to_nat v)) as [[name s]|] eqn:En.
      2:{ apply nth_error_None in En. lia. }
      rewrite (cell_body_render a v name s Ha) by (assumption || lia).
      cbn [bind].
      rewrite IH.
      2:{ lia. }
      2:{ destruct Hshape as [H|H]; [now left|right].
          cbn [length] in H. lia. }
      rewrite (skipn_cons_nth _ _ _ En).
      replace (Z.to_nat (v + 1)) with (S (Z.to_nat v)) by lia.
      unfold walk_log. cbn [combine flat_map length skipn fst snd].
      rewrite <- app_assoc. do 2 f_equal.
      cbn [length]. lia.
Qed.

End Walk.

(** ** The grid in row-major order *)

Lemma row_major_in_grid (n_row n_col : Z) :
  Forall (in_grid n_row n_col) (row_major n_row n_col).
Proof.
  apply Forall_forall. intros [i j] H. unfold row_major in H.
  apply in_flat_map in H. destruct H as (i' & Hi & H).
  apply in_map_iff in H. destruct H as (j' & [= <- <-] & Hj).
  split; cbn; now apply arange_in.
Qed.

Lemma row_major_length (n_row n_col : Z) :
  0 <= n_row -> 0 <= n_col ->
  Z.of_nat (length (row_major n_row n_col)) = n_row * n_col.
Proof.
  intros Hr Hc. unfold row_major, Axes.
  rewrite <- (arange_length n_row Hr) at 2.
  induction (arange n_row) as [|i l IH]; [reflexivity|].
  cbn [flat_map]. rewrite length_app, length_map, Nat2Z.inj_add, IH.
  rewrite arange_length by assumption. cbn [length]. lia.
Qed.


(** ** Reading the log of a walk *)





(** ** scatter_plot on a valid table *)

Lemma grid_walk_valid (n_row n_col : Z) (feats : DataFrame) (od : Selection)
    (outcome : string) :
  NoDup (columns feats) ->
  0 <= n_row -> 0 <= n_col ->
  (n_row - 1) * n_col < Z.of_nat (length feats) <= n_row * n_col ->
  grid_walk n_row n_col (Z.of_nat (length feats)) (columns feats) feats od
    outcome (grid_of n_row n_col)
  = (walk_log n_row n_col od outcome (row_major n_row n_col) feats,
     inr (Z.of_nat (length feats))).
Proof.
  intros Hnd Hr Hc Hlen. unfold grid_walk.
  rewrite for_each_nested. fold (row_major n_row n_col).
  rewrite (walk_cells n_row n_col feats od outcome Hnd _ 0).
  - cbn [Z.to_nat skipn]. rewrite row_major_length by assumption.
    do 2 f_equal. lia.
  - apply row_major_in_grid.
  - lia.
  - rewrite row_major_length by assumption.
    destruct (Z.eqb_spec n_row 1) as [->|]; [|now left].
    destruct (Z.eqb_spec n_col 1) as [->|]; [|now left].
    right. lia.
Qed.

(** A valid call on a table with at least one feature column runs to the
    end; its log is the figure, the walk in row-major order and the spacing
    adjustment. *)
Lemma scatter_plot_valid (df : DataFrame) (n_col : Z) (outcome : string)
    (f_size : Z * Z) :
  valid_table df outcome -> 1 <= n_col -> 1 <= shape1 df - 1 ->
  exists s,
    In (outcome, s) df
    /\ scatter_plot df n_col (Some outcome) f_size
       = (Subplots (ceil_div (shape1 df - 1) n_col) n_col f_size 80
            :: walk_log (ceil_div (shape1 df - 1) n_col) n_col (SelSeries s)
                 outcome
                 (row_major (ceil_div (shape1 df - 1) n_col) n_col)
                 (features_of df outcome)
            ++ [SubplotsAdjust (if n_col =? 1 then hspace_1 else hspace_05)],
          inr tt).
Proof.
  intros Hv Hc Hf.
  destruct (loc_label_outcome df outcome Hv) as (s & Hin & Hs).
  exists s. split; [assumption|].
  destruct Hv as [Hnd Hout].
  pose proof (features_of_length df outcome (conj Hnd Hout)) as Hlen.
  pose proof (ceil_div_bounds (shape1 df - 1) n_col Hc) as Hb.
  set (n_features := shape1 df - 1) in *.
  set (n_row := ceil_div n_features n_col) in *.
  assert (1 <= n_row) as Hr by nia.
  unfold scatter_plot. fold n_features.
  rewrite loc_labels_features by assumption. cbn [lift bind app].
  destruct (row_count_is_rows n_features n_col Hc) as [Hrow _].
  fold n_row in Hrow. rewrite Hrow, Hs. cbn [bind app].
  unfold subplots.
  destruct (Z.leb_spec n_row 0); [lia|].
  destruct (Z.leb_spec n_col 0); [lia|].
  cbn [orb emit ret bind app].
  rewrite columns_features_of, <- Hlen.
  rewrite grid_walk_valid;
    [|now apply features_of_NoDup|lia|lia|lia].
  cbn [bind].
  now destruct (n_col =? 1).
Qed.

(** A valid table whose only column is the outcome: no row, and
    [plt.subplots] refuses the grid. *)
Lemma scatter_plot_no_feature (df : DataFrame) (n_col : Z) (outcome : string)
    (f_size : Z * Z) :
  valid_table df outcome -> 1 <= n_col -> shape1 df - 1 = 0 ->
  scatter_plot df n_col (Some outcome) f_size = ([], inl ValueError).
Proof.
  intros Hv Hc Hf.
  destruct (loc_label_outcome df outcome Hv) as (s & Hin & Hs).
  destruct Hv as [Hnd Hout].
  unfold scatter_plot.
  rewrite loc_labels_features by assumption. cbn [lift bind app].
  rewrite Hf, n_row_of_pos by assumption.
  rewrite Z.mod_0_l, Z.div_0_l by lia. cbn [Z.eqb bind app].
  rewrite Hs. cbn [bind app]. reflexivity.
Qed.

(** ** The outcome column *)

(** C5: without an outcome column [scatter_plot] raises [ValueError] at
    once, whatever the table (empty, single-column, any other), the column
    count and the figure size: nothing is looked up, computed or drawn
    before. *)
Theorem missing_outcome_raises (df : DataFrame) (n_col : Z) (f_size : Z * Z) :
  scatter_plot df n_col None f_size = ([], inl ValueError)
  /\ scatter_plot [] n_col None f_size = ([], inl ValueError)
  /\ scatter_plot [("y", [])] n_col None f_size = ([], inl ValueError).
Proof. repeat split. Qed.

Lemma loc_labels_own (df : DataFrame) (p : string -> bool) :
  exists sub, loc_labels df (filter p (columns df)) = inr sub.
Proof.
  unfold loc_labels.
  replace (forallb _ (filter p (columns df))) with true; [eauto|].
  symmetry. apply forallb_forall. intros n Hn.
  apply filter_In in Hn. destruct Hn as [Hn _].
  apply existsb_exists. exists n. split; [assumption|apply String.eqb_refl].
Qed.

Lemma n_row_of_total (f c : Z) :
  c <> 0 -> exists r, n_row_of f c = inr r.
Proof.
  intros Hc. unfold n_row_of, py_mod, py_floordiv.
  destruct (Z.eqb_spec c 0); [contradiction|].
  destruct (f mod c =? 0); eauto.
Qed.

Lemma n_row_of_zero (f : Z) : n_row_of f 0 = inl ZeroDivisionError.
Proof. reflexivity. Qed.

(** C6: when the outcome column named is not a column of the table, the
    call ends in an exception before [plt.subplots] is reached: no figure is
    made and nothing is drawn.  The exception is the [KeyError] of the
    outcome lookup, or [ZeroDivisionError] when the column count is 0. *)
Theorem absent_outcome_raises (df : DataFrame) (n_col : Z) (outcome : string)
    (f_size : Z * Z) :
  ~ In outcome (columns df) ->
  scatter_plot df n_col (Some outcome) f_size
  = ([], inl (if n_col =? 0 then ZeroDivisionError else KeyError)).
Proof.
  intros Habs. unfold scatter_plot.
  destruct (loc_labels_own df (fun x => negb (String.eqb x outcome)))
    as [sub ->].
  cbn [lift bind app].
  destruct (Z.eqb_spec n_col 0) as [->|Hc].
  - now rewrite n_row_of_zero.
  - destruct (n_row_of_total (shape1 df - 1) n_col Hc) as [r ->].
    cbn [bind app]. now rewrite loc_label_absent.
Qed.

Lemma absent_outcome_raises_witness :
  scatter_plot [("a", [1; 2]); ("b", [3; 4])] 3 (Some "y") (15, 15)
  = ([], inl KeyError).
Proof.
  apply (absent_outcome_raises [("a", [1; 2]); ("b", [3; 4])] 3 "y" (15, 15)).
  cbn. intros [H|[H|[]]]; discriminate.
Defined.

(** ** The cells of the grid *)



Ltac prove_valid_table :=
  split;
  [ repeat (constructor; [cbn; intuition discriminate|]); constructor
  | cbn; intuition ].

Lemma df_ab_valid : valid_table df_ab "y".
Proof. prove_valid_table. Qed.

Lemma df_seven_valid : valid_table df_seven "y".
Proof. prove_valid_table. Qed.


(** ** Indexing the feature names *)

Lemma in_walk_log_scatter (n_row n_col : Z) (od : Selection)
    (outcome : string) (cells : list Axes) (feats : DataFrame)
    (a : Axes) (x y : Selection) (lab : string) (al : Q) :
  In (OnAxes a (Scatter x y lab al))
     (walk_log n_row n_col od outcome cells feats) ->
  exists s, In (lab, s) feats.
Proof.
  unfold walk_log. rewrite in_app_iff. intros [H|H].
  - apply in_flat_map in H. destruct H as ([a' [n s]] & Hc & H).
    apply in_combine_r in Hc. exists s.
    unfold rendered_calls in H. cbn [fst snd] in H.
    apply in_map_iff in H. destruct H as (c & E & H).
    injection E as _ ->.
    apply in_app_iff in H. destruct H as [H|H].
    + cbn in H.
      repeat (destruct H as [H|H]; [try discriminate|]); try contradiction.
      now injection H as _ _ <- _.
    + destruct (labels_y _ _ _ _); cbn in H; intuition discriminate.
  - apply in_map_iff in H. destruct H as (a' & E & _). discriminate.
Qed.

(** C10: on a valid call with at least one grid column the grid holds all
    features, the list of feature names has exactly featureCount entries, so
    every index below featureCount is in bounds; a cell reached with
    [v >= featureCount] is switched off without indexing; every scatter
    drawn shows [feature_names[v]] for an index [v < featureCount]; and the
    call never ends in [IndexError]. *)
Theorem feature_index_in_bounds (df : DataFrame) (n_col : Z)
    (outcome : string) (f_size : Z * Z) :
  valid_table df outcome -> 1 <= n_col ->
  let n_features := shape1 df - 1 in
  let n_row := ceil_div n_features n_col in
  let feature_names :=
    filter (fun x => negb (String.eqb x outcome)) (columns df) in
  let run := scatter_plot df n_col (Some outcome) f_size in
  n_row_of n_features n_col = inr n_row
  /\ n_features <= n_row * n_col
  /\ Z.of_nat (length feature_names) = n_features
  /\ (forall v, 0 <= v < n_features ->
        exists name, py_index feature_names v = inr name)
  /\ (forall feats od axarr i j v, n_features <= v ->
        cell_body n_row n_col n_features feature_names feats od outcome
          axarr i j v
        = (turn_off n_row n_col axarr i j ;;; ret v))
  /\ (forall a x y lab al,
        In (OnAxes a (Scatter x y lab al)) (fst run) ->
        exists v, 0 <= v < n_features /\ py_index feature_names v = inr lab)
  /\ snd run <> inl IndexError.
Proof.
  intros Hv Hc n_features n_row feature_names run.
  pose proof (features_of_length df outcome Hv) as Hlen.
  fold n_features in Hlen.
  destruct (row_count_is_rows n_features n_col Hc) as [Hrow Hb].
  fold n_row in Hrow, Hb.
  assert (feature_names = columns (features_of df outcome)) as Hnames
    by apply columns_features_of.
  assert (Z.of_nat (length feature_names) = n_features) as Hcount
    by (rewrite Hnames; unfold columns; now rewrite length_map).
  assert (forall n name, nth_error feature_names n = Some name ->
            0 <= Z.of_nat n < n_features
            /\ py_index feature_names (Z.of_nat n) = inr name) as Hidx.
  { intros n name E. split; [|now apply py_index_nth].
    assert (n < length feature_names)%nat
      by (apply nth_error_Some; congruence).
    lia. }
  split; [assumption|]. split; [lia|]. split; [assumption|].
  split; [|split; [|split]].
  - intros v Hvb.
    destruct (nth_error feature_names (Z.to_nat v)) as [name|] eqn:E.
    + exists name. rewrite <- (Z2Nat.id v) by lia. now apply py_index_nth.
    + apply nth_error_None in E. lia.
  - intros feats od axarr i j v Hge. unfold cell_body.
    destruct (Z.geb_spec v n_features); [reflexivity|lia].
  - intros a x y lab al Hin.
    destruct (Z.eq_dec n_features 0) as [E|E].
    + subst run. rewrite scatter_plot_no_feature in Hin by assumption.
      contradiction.
    + destruct (scatter_plot_valid df n_col outcome f_size Hv Hc
                  ltac:(fold n_features; lia)) as (s & _ & Hrun).
      subst run. rewrite Hrun in Hin. cbn [fst] in Hin.
      destruct Hin as [Hin|Hin]; [discriminate|].
      apply in_app_iff in Hin. destruct Hin as [Hin|[Hin|[]]];
        [|discriminate].
      apply in_walk_log_scatter in Hin. destruct Hin as [s' Hin].
      assert (In lab feature_names) as Hlab.
      { rewrite Hnames. unfold columns.
        change lab with (fst (lab, s')). now apply in_map. }
      apply In_nth_error in Hlab. destruct Hlab as [n En].
      exists (Z.of_nat n). now apply Hidx.
  - destruct (Z.eq_dec n_features 0) as [E|E].
    + subst run. now rewrite scatter_plot_no_feature by assumption.
    + destruct (scatter_plot_valid df n_col outcome f_size Hv Hc
                  ltac:(fold n_features; lia)) as (s & _ & Hrun).
      subst run. now rewrite Hrun.
Qed.

Lemma feature_index_in_bounds_witness :
  let feature_names := ["f1"; "f2"; "f3"; "f4"; "f5"; "f6"; "f7"] in
  let run := scatter_plot df_seven 3 (Some "y") (15, 15) in
  n_row_of 7 3 = inr (ceil_div 7 3)
  /\ 7 <= ceil_div 7 3 * 3
  /\ Z.of_nat (length feature_names) = 7
  /\ (forall v, 0 <= v < 7 ->
        exists name, py_index feature_names v = inr name)
  /\ (forall feats od axarr i j v, 7 <= v ->
        cell_body (ceil_div 7 3) 3 7 feature_names feats od "y" axarr i j v
        = (turn_off (ceil_div 7 3) 3 axarr i j ;;; ret v))
  /\ (forall a x y lab al,
        In (OnAxes a (Scatter x y lab al)) (fst run) ->
        exists v, 0 <= v < 7 /\ py_index feature_names v = inr lab)
  /\ snd run <> inl IndexError.
Proof.
  apply (feature_index_in_bounds df_seven 3 "y" (15, 15) df_seven_valid). lia.
Defined.

(** ** The y label *)

Lemma labels_y_first_column (n_row n_col i j : Z) :
  0 <= j < n_col -> n_col <> 1 \/ n_row = 1 ->
  labels_y n_row n_col i j = (j =? 0).
Proof.
  intros Hj Hshape. unfold labels_y.
  destruct (Z.eqb_spec n_row 1), (Z.eqb_spec n_col 1); cbn [andb];
    try reflexivity.
  - symmetry. apply Z.eqb_eq. lia.
  - lia.
Qed.

Lemma labels_y_single_column (n_row i j : Z) :
  0 <= i < n_row -> labels_y n_row 1 i j = (i =? 0).
Proof.
  intros Hi. unfold labels_y.
  destruct (Z.eqb_spec n_row 1); cbn; [|reflexivity].
  symmetry. apply Z.eqb_eq. lia.
Qed.

Lemma in_firstn {A} (n : nat) (l : list A) (x : A) :
  In x (firstn n l) -> In x l.
Proof.
  intros H. rewrite <- (firstn_skipn n l). apply in_or_app. now left.
Qed.

Lemma rendered_cells_app (l1 l2 : list Effect) :
  rendered_cells (l1 ++ l2) = rendered_cells l1 ++ rendered_cells l2.
Proof. apply flat_map_app. Qed.

Lemma ylabel_cells_app (l1 l2 : list Effect) :
  ylabel_cells (l1 ++ l2) = ylabel_cells l1 ++ ylabel_cells l2.
Proof. apply flat_map_app. Qed.

Lemma rendered_cells_off (cells : list Axes) :
  rendered_cells (map (fun a => OnAxes a AxisOff) cells) = [].
Proof. now induction cells. Qed.

Lemma ylabel_cells_off (cells : list Axes) :
  ylabel_cells (map (fun a => OnAxes a AxisOff) cells) = [].
Proof. now induction cells. Qed.

(** In the log of a walk the rendered cells are the cells paired with a
    feature, and the y-labelled ones are those of them [labels_y] picks. *)
Lemma walk_log_labels (n_row n_col : Z) (od : Selection) (outcome : string)
    (cells : list Axes) (feats : DataFrame) :
  rendered_cells (walk_log n_row n_col od outcome cells feats)
  = firstn (length feats) cells
  /\ ylabel_cells (walk_log n_row n_col od outcome cells feats)
     = filter (fun a => labels_y n_row n_col (fst a) (snd a))
         (firstn (length feats) cells).
Proof.
  unfold walk_log.
  rewrite rendered_cells_app, ylabel_cells_app, rendered_cells_off,
    ylabel_cells_off, !app_nil_r.
  revert feats. induction cells as [|a cells IH]; intros [|f feats];
    try (split; reflexivity).
  destruct (IH feats) as [IHr IHy].
  cbn [combine flat_map length firstn filter].
  rewrite rendered_cells_app, ylabel_cells_app, IHr, IHy.
  unfold rendered_calls.
  destruct (labels_y n_row n_col (fst a) (snd a)); split; reflexivity.
Qed.

(** Away from the single-column path with several rows, the y label sits on
    the rendered cells of column 0 and on no other cell. *)
Lemma ylabel_on_first_column (df : DataFrame) (n_col : Z) (outcome : string)
    (f_size : Z * Z) :
  valid_table df outcome -> 1 <= n_col -> 1 <= shape1 df - 1 ->
  n_col <> 1 \/ shape1 df - 1 = 1 ->
  let log := fst (scatter_plot df n_col (Some outcome) f_size) in
  ylabel_cells log = filter (fun a => snd a =? 0) (rendered_cells log).
Proof.
  intros Hv Hc Hf Hshape log.
  destruct (scatter_plot_valid df n_col outcome f_size Hv Hc Hf)
    as (s & _ & Hrun).
  subst log. rewrite Hrun. cbn [fst].
  set (n_row := ceil_div (shape1 df - 1) n_col) in *.
  change (Subplots n_row n_col f_size 80 :: ?l)
    with ([Subplots n_row n_col f_size 80] ++ l).
  rewrite !ylabel_cells_app, !rendered_cells_app.
  destruct (walk_log_labels n_row n_col (SelSeries s) outcome
              (row_major n_row n_col) (features_of df outcome)) as [-> ->].
  cbn [ylabel_cells rendered_cells flat_map app]. rewrite !app_nil_r.
  apply filter_ext_in. intros [i j] Hin.
  apply in_firstn in Hin.
  pose proof (row_major_in_grid n_row n_col) as Hg.
  rewrite Forall_forall in Hg. destruct (Hg _ Hin) as [_ Hj].
  apply labels_y_first_column; [assumption|].
  destruct Hshape as [H|H]; [now left|right].
  subst n_row. rewrite H.
  pose proof (ceil_div_bounds 1 n_col Hc). nia.
Qed.

(** On the single-column path only row 0 is y-labelled. *)
Lemma ylabel_single_column (df : DataFrame) (outcome : string)
    (f_size : Z * Z) :
  valid_table df outcome -> 1 <= shape1 df - 1 ->
  let log := fst (scatter_plot df 1 (Some outcome) f_size) in
  rendered_cells log = row_major (shape1 df - 1) 1
  /\ ylabel_cells log = filter (fun a => fst a =? 0) (rendered_cells log).
Proof.
  intros Hv Hf log.
  destruct (scatter_plot_valid df 1 outcome f_size Hv ltac:(lia) Hf)
    as (s & _ & Hrun).
  pose proof (features_of_length df outcome Hv) as Hlen.
  pose proof (ceil_div_bounds (shape1 df - 1) 1 ltac:(lia)) as Hb.
  assert (ceil_div (shape1 df - 1) 1 = shape1 df - 1) as Er by lia.
  rewrite Er in Hrun.
  set (n_row := shape1 df - 1) in *.
  subst log. rewrite Hrun. cbn [fst].
  change (Subplots n_row 1 f_size 80 :: ?l)
    with ([Subplots n_row 1 f_size 80] ++ l).
  rewrite !ylabel_cells_app, !rendered_cells_app.
  destruct (walk_log_labels n_row 1 (SelSeries s) outcome
              (row_major n_row 1) (features_of df outcome)) as [-> ->].
  cbn [ylabel_cells rendered_cells flat_map app]. rewrite !app_nil_r.
  split.
  - apply firstn_all2.
    pose proof (row_major_length n_row 1 ltac:(lia) ltac:(lia)). lia.
  - apply filter_ext_in. intros [i j] Hin.
    apply in_firstn in Hin.
    pose proof (row_major_in_grid n_row 1) as Hg.
    rewrite Forall_forall in Hg. destruct (Hg _ Hin) as [Hi _].
    now apply labels_y_single_column.
Qed.

(** The specification's scenario: columns [a, b, y] in two columns make a
    1 x 2 grid, both cells rendered, the y label on cell (0, 0) only. *)
Example two_features_two_columns :
  let run := scatter_plot df_ab 2 (Some "y") (15, 15) in
  snd run = inr tt
  /\ cell_events (fst run) = [((0, 0), Rendered "a"); ((0, 1), Rendered "b")]
  /\ ylabel_cells (fst run) = [(0, 0)].
Proof. cbv zeta. repeat split. Qed.

(** C1: the table [a, b, y] drawn in one column.  Both cells are rendered and
    both are in column 0, yet only cell (0, 0) receives the y label: cell
    (1, 0) gets its spines, ticks, scatter and x label and no
    [set_ylabel]. *)
Theorem single_column_second_row_unlabelled :
  let log := fst (scatter_plot df_ab 1 (Some "y") (15, 15)) in
  snd (scatter_plot df_ab 1 (Some "y") (15, 15)) = inr tt
  /\ rendered_cells log = [(0, 0); (1, 0)]
  /\ ylabel_cells log = [(0, 0)]
  /\ calls_on (1, 0) log
     = [SpineSetVisible "right" false; SpineSetVisible "top" false;
        TickParams "both" "both" 5;
        Scatter (SelSeries [3; 4]) (SelSeries [5; 6]) "b" alpha_06;
        SetXLabel "b"]
  /\ ylabel_cells log <> filter (fun a => snd a =? 0) (rendered_cells log).
Proof.
  cbv zeta. repeat split; try reflexivity.
  vm_compute. discriminate.
Qed.

(** ** The four paths against the single rendering rule *)

(** Every path but the single-column one below its first row does to its
    cell exactly what the single rule says. *)
Lemma render_cell_unified (n_row n_col i j v : Z) (names : list string)
    (od x : Selection) (outcome name : string) :
  0 <= i < n_row -> 0 <= j < n_col ->
  py_index names v = inr name ->
  n_col <> 1 \/ n_row = 1 \/ i = 0 ->
  render_cell n_row n_col names od outcome (grid_of n_row n_col) i j v x name
  = (map (OnAxes (i, j)) (unified_cell_calls x od name outcome j), inr tt).
Proof.
  intros Hi Hj Hn Hshape.
  rewrite (render_cell_log n_row n_col names od outcome (grid_of n_row n_col)
             i j v (i, j) x name (cell_accessor_grid _ _ _ _ Hi Hj) Hn).
  unfold unified_cell_calls. do 3 f_equal.
  destruct Hshape as [H|[H|H]].
  - apply labels_y_first_column; auto.
  - apply labels_y_first_column; auto.
  - destruct (Z.eq_dec n_col 1) as [->|Hc].
    + rewrite labels_y_single_column by assumption.
      subst i. symmetry. apply Z.eqb_eq. lia.
    + apply labels_y_first_column; auto.
Qed.

Lemma render_cell_unified_witness :
  render_cell 1 2 ["a"; "b"] (SelSeries [5; 6]) "y" (grid_of 1 2) 0 1 1
    (SelSeries [3; 4]) "b"
  = (map (OnAxes (0, 1))
       (unified_cell_calls (SelSeries [3; 4]) (SelSeries [5; 6]) "b" "y" 1),
     inr tt).
Proof.
  apply render_cell_unified; try lia; reflexivity.
Defined.

(** C4: cell (1, 0) showing feature "b", reached through the single-column
    path (a 2 x 1 grid) and through the two-dimensional path (a 2 x 2
    grid).  The two-dimensional path does what the single rule says; the
    single-column path leaves the y label out, so the two outputs for the
    same cell differ. *)
Theorem single_column_path_differs :
  let names := ["a"; "b"] in
  let x := SelSeries [3; 4] in
  let od := SelSeries [5; 6] in
  render_cell 2 2 names od "y" (grid_of 2 2) 1 0 1 x "b"
  = (map (OnAxes (1, 0)) (unified_cell_calls x od "b" "y" 0), inr tt)
  /\ render_cell 2 1 names od "y" (grid_of 2 1) 1 0 1 x "b"
     = (map (OnAxes (1, 0)) (rendered_calls x od "b" "y" false), inr tt)
  /\ render_cell 2 1 names od "y" (grid_of 2 1) 1 0 1 x "b"
     <> render_cell 2 2 names od "y" (grid_of 2 2) 1 0 1 x "b".
Proof.
  cbv zeta. repeat split. vm_compute. discriminate.
Qed.

(** ** train_test *)

(** C7: [train_test] is a function of its arguments alone.  The forest is
    grown from the generator seeded with 1234, so the state numpy's ambient
    generator happens to be in has no influence: two calls with equal data
    and hyperparameters compute the same errors and print the same lines. *)
Theorem train_test_deterministic (L : Library) (ambient1 ambient2 : RandomState L)
    (features_train : Table L) (outcome_train : Vector L)
    (features_test : Table L) (outcome_test : Vector L)
    (n_trees n_features depth : Z) :
  train_test_rmse ambient1 features_train outcome_train features_test
    outcome_test n_trees n_features depth
  = train_test_rmse ambient2 features_train outcome_train features_test
      outcome_test n_trees n_features depth
  /\ train_test ambient1 features_train outcome_train features_test
       outcome_test n_trees n_features depth
     = train_test ambient2 features_train outcome_train features_test
         outcome_test n_trees n_features depth.
Proof. split; reflexivity. Qed.

(** An estimator built without a seed does depend on the ambient generator:
    the fixed seed is what the determinism rests on. *)
Example unseeded_fit_depends_on_ambient :
  let model := {| n_estimators := 100; max_depth := 6; max_features := 3;
                  random_state := None |} in
  fit (L := IntLib) model 0 [[1]; [2]] [10; 20]
  <> fit (L := IntLib) model 1 [[1]; [2]] [10; 20].
Proof. cbv zeta. vm_compute. discriminate. Qed.

(** C8: when the test split is the training split, the two errors computed
    are equal. *)
Theorem same_split_same_rmse (L : Library) (ambient : RandomState L)
    (features : Table L) (outcome : Vector L) (n_trees n_features depth : Z)
    (rmse_train rmse_test : Float L) :
  train_test_rmse ambient features outcome features outcome
    n_trees n_features depth = inr (rmse_train, rmse_test) ->
  rmse_train = rmse_test.
Proof.
  unfold train_test_rmse, rbind.
  destruct (fit _ _ _ _) as [e|fitted]; [discriminate|].
  destruct (forest_predict L fitted features) as [e|pred]; [discriminate|].
  destruct (mean_squared_error L outcome pred) as [e|mse]; [discriminate|].
  now intros [= <- <-].
Qed.

Lemma same_split_same_rmse_witness :
  train_test_rmse (L := IntLib) 7 [[1]; [2]; [3]] [10; 20; 60]
    [[1]; [2]; [3]] [10; 20; 60] 100 3 6 = inr (21, 21)
  /\ (21 : Float IntLib) = 21.
Proof.
  split; [reflexivity|].
  apply (same_split_same_rmse IntLib 7 [[1]; [2]; [3]] [10; 20; 60] 100 3 6).
  reflexivity.
Defined.

(** C9: a call whose fit, predictions and error computations go through
    prints two lines, "rmse train: " and "rmse test: " in that order, each
    followed by the formatted value of the split's mean squared error (true
    outcomes against the fitted model's predictions on that split) raised to
    the power 0.5, and returns [None]. *)
Theorem train_test_prints (L : Library) (ambient : RandomState L)
    (features_train : Table L) (outcome_train : Vector L)
    (features_test : Table L) (outcome_test : Vector L)
    (n_trees n_features depth : Z)
    (fitted : Forest L) (pred_train pred_test : Vector L)
    (mse_train mse_test : Float L) :
  fit {| n_estimators := n_trees; max_depth := depth;
         max_features := n_features; random_state := Some 1234 |}
      ambient features_train outcome_train = inr fitted ->
  forest_predict L fitted features_train = inr pred_train ->
  forest_predict L fitted features_test = inr pred_test ->
  mean_squared_error L outcome_train pred_train = inr mse_train ->
  mean_squared_error L outcome_test pred_test = inr mse_test ->
  train_test ambient features_train outcome_train features_test outcome_test
    n_trees n_features depth
  = ([("rmse train: "
         ++ format_float L (float_pow L mse_train (half L)))%string;
      ("rmse test: "
         ++ format_float L (float_pow L mse_test (half L)))%string],
     inr tt).
Proof.
  intros Hfit Htr Hte Hmtr Hmte.
  unfold train_test, train_test_rmse, rbind.
  now rewrite Hfit, Htr, Hte, Hmtr, Hmte.
Qed.

Lemma train_test_prints_witness :
  train_test (L := IntLib) 7 [[1]; [2]; [3]] [10; 20; 60] [[4]; [5]] [30; 41]
    100 3 6
  = (["rmse train: 21"; "rmse test: 7"], inr tt).
Proof.
  apply (train_test_prints IntLib 7 [[1]; [2]; [3]] [10; 20; 60]
           [[4]; [5]] [30; 41] 100 3 6 30 [30; 30; 30] [30; 30] 466 60);
    reflexivity.
Defined.

(** ** Column counts that make no grid *)







(** ** The frame of the log *)




(** ** What each cell receives *)















(** ** The features plotted *)





Lemma ylabel_on_first_column_witness :
  let log := fst (scatter_plot df_seven 3 (Some "y") (15, 15)) in
  ylabel_cells log = filter (fun a => snd a =? 0) (rendered_cells log).
Proof.
  apply (ylabel_on_first_column df_seven 3 "y" (15, 15) df_seven_valid);
    [lia | cbn; lia | left; lia].
Defined.

(** ** train_test: failures and the two splits *)

(** The two lines are printed after everything is computed, so a call of
    [train_test] that ends in an exception, wherever it is raised, has
    printed nothing, not even a training error already computed. *)
Theorem raising_call_prints_nothing (L : Library) (ambient : RandomState L)
    (features_train : Table L) (outcome_train : Vector L)
    (features_test : Table L) (outcome_test : Vector L)
    (n_trees n_features depth : Z) (e : exn) :
  snd (train_test ambient features_train outcome_train features_test
         outcome_test n_trees n_features depth) = inl e ->
  train_test ambient features_train outcome_train features_test
    outcome_test n_trees n_features depth = ([], inl e)
  /\ train_test_rmse ambient features_train outcome_train features_test
       outcome_test n_trees n_features depth = inl e.
Proof.
  unfold train_test.
  destruct (train_test_rmse ambient features_train outcome_train
              features_test outcome_test n_trees n_features depth)
    as [e'|[a b]]; cbn.
  - intros [= ->]. split; reflexivity.
  - discriminate.
Qed.

Lemma raising_call_prints_nothing_witness :
  train_test (L := IntLib) 7 [[1]; [2]; [3]] [10; 20; 60] [[4]; [5]] [30]
    100 3 6 = ([], inl ValueError)
  /\ train_test_rmse (L := IntLib) 7 [[1]; [2]; [3]] [10; 20; 60]
       [[4]; [5]] [30] 100 3 6 = inl ValueError.
Proof.
  apply (raising_call_prints_nothing IntLib 7 [[1]; [2]; [3]] [10; 20; 60]
           [[4]; [5]] [30] 100 3 6 ValueError).
  reflexivity.
Defined.

(** The forest is fitted on the training split alone: two calls that differ
    only in their test split and both return compute the same training
    error. *)
Theorem train_error_ignores_test_split (L : Library)
    (ambient : RandomState L)
    (features_train : Table L) (outcome_train : Vector L)
    (features_test1 features_test2 : Table L)
    (outcome_test1 outcome_test2 : Vector L)
    (n_trees n_features depth : Z)
    (train1 test1 train2 test2 : Float L) :
  train_test_rmse ambient features_train outcome_train features_test1
    outcome_test1 n_trees n_features depth = inr (train1, test1) ->
  train_test_rmse ambient features_train outcome_train features_test2
    outcome_test2 n_trees n_features depth = inr (train2, test2) ->
  train1 = train2.
Proof.
  unfold train_test_rmse, rbind.
  destruct (fit _ _ _ _) as [e|fitted]; [discriminate|].
  destruct (forest_predict L fitted features_train) as [e|pred];
    [discriminate|].
  destruct (forest_predict L fitted features_test1) as [e|p1];
    [discriminate|].
  destruct (forest_predict L fitted features_test2) as [e|p2];
    [discriminate|].
  destruct (mean_squared_error L outcome_train pred) as [e|m];
    [discriminate|].
  destruct (mean_squared_error L outcome_test1 p1) as [e|m1];
    [discriminate|].
  destruct (mean_squared_error L outcome_test2 p2) as [e|m2];
    [discriminate|].
  intros [= <- _] [= <- _]. reflexivity.
Qed.

Lemma train_error_ignores_test_split_witness :
  (21 : Float IntLib) = 21
  /\ train_test_rmse (L := IntLib) 7 [[1]; [2]; [3]] [10; 20; 60]
       [[4]; [5]] [30; 41] 100 3 6 = inr (21, 7)
  /\ train_test_rmse (L := IntLib) 7 [[1]; [2]; [3]] [10; 20; 60]
       [[9]] [130] 100 3 6 = inr (21, 100).
Proof.
  split; [|split; reflexivity].
  apply (train_error_ignores_test_split IntLib 7 [[1]; [2]; [3]] [10; 20; 60]
           [[4]; [5]] [[9]] [30; 41] [130] 100 3 6 21 7 21 100);
    reflexivity.
Defined.
